(** * Result.hpp: a shallow embedding of [Result<R, E>] and its combinators

    The header defines one class template, [Result<R, E>], over a
    [boost::variant<R, E>], six consuming member functions ([map_res],
    [map_err], [and_then], [or_else], [unwrap], [expect]), two [const]
    queries, three private assertions, two private getters and the [TRY]
    macro.  Each of them is translated below, in the order of the header.

    C++ effects are made explicit:
    - an expression either returns a value or throws ([completion]);
    - code runs in a state and exception monad [M S];
    - callables handed in by the caller (the template parameter [F]) act
      on a caller-owned world [W]: they may read it, change it and throw;
    - a non-[const] member function runs on the pair of its receiver
      ([*this]) and the world, so that what it does to the receiver is
      visible in its result;
    - a [const] member function is a function of the receiver alone. *)

From Stdlib Require Import ZArith Bool String List Lia.
From Equations Require Import Equations.
Import ListNotations.

Local Open Scope string_scope.
Local Open Scope Z_scope.

(** ** Exceptions and completions *)

(** The exception classes of the standard library that the header and its
    tests throw: [std::exception] carries nothing, [std::logic_error] its
    message. *)
Module std.

Inductive exception : Type := mk_exception.

Record logic_error : Type := mk_logic_error { what : string }.

End std.

(** What a [throw] expression carries: [thrown T t] is [throw t] for an
    object [t] of static type [T]. *)
Inductive exn : Type :=
| thrown (T : Type) (t : T).

(** [throw std::logic_error(what)] *)
Definition std_logic_error (what : string) : exn :=
  thrown std.logic_error (std.mk_logic_error what).

Inductive completion (A : Type) : Type :=
| Returns (a : A)
| Throws (x : exn).
Arguments Returns {A} a.
Arguments Throws {A} x.

Definition returned {A} (c : completion A) : bool :=
  match c with Returns _ => true | Throws _ => false end.

(** ** The monads *)

(** Code that runs on a state [S] and may throw. *)
Definition M (S A : Type) : Type := S -> completion A * S.

Class MonadExn (m : Type -> Type) : Type := {
  ret : forall {A}, A -> m A;
  bind : forall {A B}, m A -> (A -> m B) -> m B;
  throw : forall {A}, exn -> m A
}.

#[global] Instance MonadExn_completion : MonadExn completion := {
  ret _ a := Returns a;
  bind _ _ c k := match c with Returns a => k a | Throws x => Throws x end;
  throw _ x := Throws x
}.

#[global] Instance MonadExn_M (S : Type) : MonadExn (M S) := {
  ret _ a := fun s => (Returns a, s);
  bind _ _ c k := fun s =>
    match c s with
    | (Returns a, s') => k a s'
    | (Throws x, s') => (Throws x, s')
    end;
  throw _ x := fun s => (Throws x, s)
}.

Declare Scope monad_scope.
Delimit Scope monad_scope with monad.
Notation "x <- c ;; k" := (bind c (fun x => k))
  (at level 61, c at next level, right associativity) : monad_scope.
Notation "c ;; k" := (bind c (fun _ => k))
  (at level 61, right associativity) : monad_scope.
Local Open Scope monad_scope.

(** A total function of the caller, without effect. *)
Definition pure {W A B} (g : A -> B) : A -> M W B :=
  fun a => ret (g a).

(** [total f]: on every argument and in every world, [f] returns. *)
Definition total {W A B} (f : A -> M W B) : Prop :=
  forall a w, returned (fst (f a w)) = true.

(** A member function runs on its receiver and the world. *)
Definition Method (Self W A : Type) : Type := M (Self * W) A.

(** [this->q()] for a [const noexcept] member function [q]. *)
Definition this_noexcept {Self W A} (q : Self -> A) : Method Self W A :=
  fun s => (Returns (q (fst s)), s).

(** [this->c()] for a [const noexcept(false)] member function [c]. *)
Definition this_const {Self W A} (c : Self -> completion A) : Method Self W A :=
  fun s => (c (fst s), s).

(** [f(x)] for a callable [f] of the caller: it sees the world, never
    the receiver. *)
Definition invoke {Self W A} (m : M W A) : Method Self W A :=
  fun s => match m (snd s) with (c, w') => (c, (fst s, w')) end.

(** [obj.m()] for an object [obj] that nothing reads afterwards, a
    temporary or a local at the end of its scope: the member function
    runs on it and the object is destroyed. *)
Definition on_temporary {Self W A} (obj : Self) (m : Method Self W A) : M W A :=
  fun w => match m (obj, w) with (c, (_, w')) => (c, w') end.

(** ** [boost::variant<T0, T1>], as far as the header uses it *)

Module boost.

(** The variant holds exactly one of its two alternatives ([which] is
    its zero-based index) and is never empty: [empty] "always returns
    false", the library's never-empty guarantee. *)
Inductive bad_get : Type := mk_bad_get.

Inductive variant (T0 T1 : Type) : Type :=
| holds0 (x : T0)
| holds1 (y : T1).
Arguments holds0 {T0 T1} x.
Arguments holds1 {T0 T1} y.

Definition which {T0 T1} (v : variant T0 T1) : Z :=
  match v with holds0 _ => 0 | holds1 _ => 1 end.

Definition empty {T0 T1} (v : variant T0 T1) : bool := false.

(** [boost::get<T0>(v)] and [boost::get<T1>(v)] on a reference: the
    content, or [bad_get] when the other alternative is held. *)
Definition get0 {T0 T1} (v : variant T0 T1) : completion T0 :=
  match v with holds0 x => Returns x | holds1 _ => Throws (thrown bad_get mk_bad_get) end.

Definition get1 {T0 T1} (v : variant T0 T1) : completion T1 :=
  match v with holds0 _ => Throws (thrown bad_get mk_bad_get) | holds1 y => Returns y end.

End boost.

(** ** [class Result] *)

Record Result (R E : Type) : Type := mkResult {
internal_ : boost.variant R E
}.
Arguments mkResult {R E} internal_.
Arguments internal_ {R E} r.

Section ResultClass.

Context {R E : Type}.

(** *** Constructors *)

Definition Ok (ret : R) : Result R E := mkResult (boost.holds0 ret).
Definition Err (err : E) : Result R E := mkResult (boost.holds1 err).

(** *** Const accessors *)

Definition is_ok (this : Result R E) : bool :=
  boost.which (internal_ this) =? 0.
Definition is_error (this : Result R E) : bool :=
  boost.which (internal_ this) =? 1.

(** *** Assertions *)

Definition expect_valid_state (this : Result R E) : completion unit :=
  if boost.empty (internal_ this)
  then throw (std_logic_error "this object is not in a valid state")
  else ret tt.

Definition expect_return (this : Result R E) : completion unit :=
  if is_error this
  then throw (std_logic_error "attempt to read the return of an error")
  else ret tt.

Definition expect_error (this : Result R E) : completion unit :=
  if is_ok this
  then throw (std_logic_error "attempt to read the error of a valid result")
  else ret tt.

(** *** Getters: [const], and they return the payload by value *)

Definition get_return (this : Result R E) : completion R :=
  expect_valid_state this ;;
  expect_return this ;;
  boost.get0 (internal_ this).

Definition get_error (this : Result R E) : completion E :=
  expect_valid_state this ;;
  expect_error this ;;
  boost.get1 (internal_ this).

End ResultClass.

(** ** Non-const accessors *)

Section Members.

Context {R E W : Type}.

Definition map_res {RR} (f : R -> M W RR) : Method (Result R E) W (Result RR E) :=
  b <- this_noexcept is_error ;;
  if b : bool
  then e <- this_const get_error ;; ret (Err e)
  else v <- this_const get_return ;; rr <- invoke (f v) ;; ret (Ok rr).

Definition map_err {EE} (f : E -> M W EE) : Method (Result R E) W (Result R EE) :=
  b <- this_noexcept is_ok ;;
  if b : bool
  then v <- this_const get_return ;; ret (Ok v)
  else e <- this_const get_error ;; ee <- invoke (f e) ;; ret (Err ee).

Definition and_then {RR} (f : R -> M W (Result RR E))
  : Method (Result R E) W (Result RR E) :=
  b <- this_noexcept is_error ;;
  if b : bool
  then e <- this_const get_error ;; ret (Err e)
  else v <- this_const get_return ;; invoke (f v).

(** [or_else<RR>] builds its [Ok] branch with
    [Result<RR, error_type>::Ok(this->get_return())]: the [R] that the
    getter returns initialises the [RR&&] parameter of [Ok], through the
    implicit conversion [conv] from [R] to [RR] (the identity when [RR]
    is [R]). *)
Definition or_else {RR} (conv : R -> RR) (f : R -> M W (Result RR E))
  : Method (Result R E) W (Result RR E) :=
  b <- this_noexcept is_ok ;;
  if b : bool
  then v <- this_const get_return ;; ret (Ok (conv v))
  else v <- this_const get_return ;; invoke (f v).

Definition unwrap : Method (Result R E) W R :=
  b <- this_noexcept is_error ;;
  if b : bool
  then e <- this_const get_error ;; throw (thrown E e)
  else this_const get_return.

Definition expect {EE} (err : EE) : Method (Result R E) W R :=
  this_const expect_valid_state ;;
  b <- this_noexcept is_error ;;
  if b : bool
  then throw (thrown EE err)
  else this_const get_return.

End Members.

(** ** The [TRY] macro *)

(** The macro is a statement expression with a [return] inside: where it
    stands, control either goes on with a value or leaves the enclosing
    function with a [Result].  [Body Ret W A] is a piece of a function
    body whose function returns [Ret]: [inl a] goes on with [a], [inr r]
    is [return r]. *)
Definition Body (Ret W A : Type) : Type := M W (A + Ret).

Definition goes_on {Ret W A} (m : M W A) : Body Ret W A :=
  a <- m ;; ret (inl a).

Definition return_ {Ret W A} (r : Ret) : Body Ret W A :=
  ret (inr r).

Definition then_ {Ret W A B} (c : Body Ret W A) (k : A -> Body Ret W B)
  : Body Ret W B :=
  x <- (c : M W (A + Ret)) ;;
  match x with
  | inl a => k a
  | inr r => ret (inr r)
  end.

Notation "x <~ c ;; k" := (then_ c (fun x => k))
  (at level 61, c at next level, right associativity) : monad_scope.

(** A function whose body is [body]: every path of a C++ function that
    returns a value ends in a [return], so nothing goes on past the end. *)
Definition function {Ret W} (body : Body Ret W Empty_set) : M W Ret :=
  x <- (body : M W (Empty_set + Ret)) ;;
  match x with
  | inl nothing => match nothing with end
  | inr r => ret r
  end.

Section Try.

Context {R E W : Type}.

(** [TRY(expr)]: [auto res = expr; if (res.is_error()) { return res; }
    res.unwrap();].  [return res] gives the enclosing function's result,
    so that function returns a [Result<R, E>] too. *)
Definition TRY (expr : M W (Result R E)) : Body (Result R E) W R :=
  res <- expr ;;
  if is_error res
  then return_ res
  else goes_on (on_temporary res unwrap).

End Try.

(** ** The callers of the unit tests *)

(** [struct error : virtual std::exception { };] *)
Inductive error : Type := mk_error.

(** [int by_two(int&& i) { return i * 2; }]; [int] is read as [Z], the
    tests stay far from the bounds of [int]. *)
Definition by_two (i : Z) : Z := i * 2.

(** [Result<int> by_two_(int&& i) { return Result<int>::Ok(i * 2); }] *)
Definition by_two_ (i : Z) : Result Z std.exception := Ok (i * 2).

(** [r.m1().m2()...]: each member function runs on the temporary that
    the one before it returned. *)
Fixpoint chained {W A} (ms : list (Method A W A)) (r : A) : M W A :=
  match ms with
  | [] => ret r
  | m :: ms' => r' <- on_temporary r m ;; chained ms' r'
  end.

(** [r.and_then<RR>(f1).and_then<RRR>(f2)] *)
Definition and_then_twice {W R RR RRR E}
  (f1 : R -> M W (Result RR E)) (f2 : RR -> M W (Result RRR E))
  (r : Result R E) : M W (Result RRR E) :=
  r1 <- on_temporary r (and_then f1) ;;
  on_temporary r1 (and_then f2).

(** A function of two fallible steps, in the shape of the header's and
    the README's examples:
    [auto a = TRY(step1()); auto b = TRY(step2(a)); return finish(a, b);] *)
Definition two_steps {W R E}
  (step1 : M W (Result R E)) (step2 : R -> M W (Result R E))
  (finish : R -> R -> Result R E) : M W (Result R E) :=
  function (
    a <~ TRY step1 ;;
    b <~ TRY (step2 a) ;;
    return_ (finish a b)).

(** A step that leaves a trace in the world before it returns [r]. *)
Definition traced {A} (name : string) (r : A) : M (list string) A :=
  fun log => (Returns r, (log ++ [name])%list).

(** [f] and then [g] on what [f] returned: the callable
    [[&](auto v) { return g(f(v)); }]. *)
Definition and_after {W A B C} (f : A -> M W B) (g : B -> M W C) : A -> M W C :=
  fun a => b <- f a ;; g b.

(** ** [int] *)

(** Values of [int] are read as the integers from [INT_MIN] to [INT_MAX];
    a sum that leaves this range wraps around, as it does in two's
    complement. *)
Definition INT_MIN : Z := - 2 ^ 31.
Definition INT_MAX : Z := 2 ^ 31 - 1.

Definition int_wrap (z : Z) : Z := (z + 2 ^ 31) mod 2 ^ 32 - 2 ^ 31.

Definition int_add (a b : Z) : Z := int_wrap (a + b).

(** ** The Fibonacci functions of the unit tests *)

Section Fib.

Context {W : Type}.

(** [get_fib_recursive]: the calls on [n - 1] and [n - 2] are reached
    with [n >= 2] only, which is why the recursion ends. *)
Equations? get_fib_recursive (n : Z) : M W (Result Z std.exception)
  by wf (Z.to_nat n) lt :=
get_fib_recursive n :=
  function (
    match Z_lt_dec n 0 with
    | left _ => return_ (Err std.mk_exception)
    | right _ =>
      match Z.eq_dec n 0 with
      | left _ => return_ (Ok 1)
      | right _ =>
        match Z.eq_dec n 1 with
        | left _ => return_ (Ok 1)
        | right _ =>
          n_1 <~ TRY (get_fib_recursive (n - 1)) ;;
          n_2 <~ TRY (get_fib_recursive (n - 2)) ;;
          return_ (Ok (int_add n_1 n_2))
        end
      end
    end).
Proof. all: lia. Qed.

(** The loop of [get_fib_iterative],
    [for (int i = n; i > 0; --i) { int next = n_1 + n_2; n_2 = n_1; n_1 = next; }],
    from the state [(i, n_1, n_2)] on; it gives the final [n_1]. *)
Equations? fib_loop (i n_1 n_2 : Z) : Z by wf (Z.to_nat i) lt :=
fib_loop i n_1 n_2 :=
  match Z_gt_dec i 0 with
  | left _ => fib_loop (i - 1) (int_add n_1 n_2) n_1
  | right _ => n_1
  end.
Proof. lia. Qed.

Definition get_fib_iterative (n : Z) : M W (Result Z std.exception) :=
  function (
    if n <? 0
    then return_ (Err std.mk_exception)
    else return_ (Ok (fib_loop n 1 0))).

End Fib.

(** One turn of the loop on the pair [(n_1, n_2)], and the [n_1] that
    [k] turns give from [n_1 = 1] and [n_2 = 0]. *)
Definition fib_step (s : Z * Z) : Z * Z := (int_add (fst s) (snd s), fst s).

Definition fib_int (k : nat) : Z := fst (Nat.iter k fib_step (1, 0)).

(** The Fibonacci numbers as the tests count them, from [1, 1, 2, 3]
    on, without a bound. *)
Fixpoint fibonacci (k : nat) : Z :=
  match k with
  | O => 1
  | S k' =>
    match k' with
    | O => 1
    | S k'' => fibonacci k' + fibonacci k''
    end
  end.

(** ** The invariant of a [Result] *)

(** Exactly one of the two queries holds, the variant is not empty, and
    each getter returns exactly when its query holds. *)
Definition consistent {R E} (r : Result R E) : Prop :=
  xorb (is_ok r) (is_error r) = true
  /\ boost.empty (internal_ r) = false
  /\ returned (get_return r) = is_ok r
  /\ returned (get_error r) = is_error r.

(** The receiver after a call. *)
Definition receiver_after {Self W A} (m : Method Self W A) (this : Self) (w : W) : Self :=
  fst (snd (m (this, w))).

(** What a member function is left with after it called the caller's
    function: the completion [r] of that call and the world it left, the
    value wrapped by [k] and the receiver [this] as it was. *)
Definition wrapped {A B S W} (k : A -> B) (this : S) (r : completion A * W)
  : completion B * (S * W) :=
  match r with
  | (Returns a, w') => (Returns (k a), (this, w'))
  | (Throws x, w') => (Throws x, (this, w'))
  end.

(** [m] called twice on the same object, one call after the other. *)
Definition twice {Self W A} (m : Method Self W A) : Method Self W (A * A) :=
  a <- m ;; b <- m ;; ret (a, b).

(** What holds of the [Result] a call produced, when it produced one. *)
Definition produces {A} (P : A -> Prop) (c : completion A) : Prop :=
  match c with
  | Returns a => P a
  | Throws _ => True
  end.

(** * Properties *)

(** ** Getters and assertions on the two variants *)

Section Getters.

Context {R E : Type}.

Lemma get_return_Ok (v : R) : get_return (E:=E) (Ok v) = Returns v.
Proof. reflexivity. Qed.

Lemma get_error_Err (e : E) : get_error (R:=R) (Err e) = Returns e.
Proof. reflexivity. Qed.

Lemma get_return_Err (e : E) :
  get_return (R:=R) (Err e)
  = Throws (std_logic_error "attempt to read the return of an error").
Proof. reflexivity. Qed.

Lemma get_error_Ok (v : R) :
  get_error (E:=E) (Ok v)
  = Throws (std_logic_error "attempt to read the error of a valid result").
Proof. reflexivity. Qed.

Lemma Result_cases (r : Result R E) :
  (exists v, r = Ok v) \/ (exists e, r = Err e).
Proof.
  destruct r as [[v | e]]; [left; exists v | right; exists e]; reflexivity.
Qed.

Lemma expect_valid_state_returns (r : Result R E) :
  expect_valid_state r = Returns tt.
Proof. reflexivity. Qed.

Lemma consistent_all (r : Result R E) : consistent r.
Proof.
  destruct r as [[v | e]]; repeat split.
Qed.

End Getters.

(** ** What each member function does on [Ok] and on [Err] *)

Section Combinators.

Context {R E W : Type}.

Lemma map_res_Ok {RR} (f : R -> M W RR) (v : R) (w : W) :
  map_res (E:=E) f (Ok v, w) = wrapped Ok (Ok v) (f v w).
Proof.
  unfold map_res, wrapped, invoke; cbn. destruct (f v w) as [[rr | x] w']; reflexivity.
Qed.

Lemma map_res_Err {RR} (f : R -> M W RR) (e : E) (w : W) :
  map_res f (Err e, w) = (Returns (Err e), (Err e, w)).
Proof. reflexivity. Qed.

Lemma map_err_Err {EE} (f : E -> M W EE) (e : E) (w : W) :
  map_err (R:=R) f (Err e, w) = wrapped Err (Err e) (f e w).
Proof.
  unfold map_err, wrapped, invoke; cbn. destruct (f e w) as [[ee | x] w']; reflexivity.
Qed.

Lemma map_err_Ok {EE} (f : E -> M W EE) (v : R) (w : W) :
  map_err f (Ok v, w) = (Returns (Ok v), (Ok v, w)).
Proof. reflexivity. Qed.

Lemma and_then_Ok {RR} (f : R -> M W (Result RR E)) (v : R) (w : W) :
  and_then f (Ok v, w) = wrapped (fun r => r) (Ok v) (f v w).
Proof.
  unfold and_then, wrapped, invoke; cbn. destruct (f v w) as [[rr | x] w']; reflexivity.
Qed.

Lemma and_then_Err {RR} (f : R -> M W (Result RR E)) (e : E) (w : W) :
  and_then f (Err e, w) = (Returns (Err e), (Err e, w)).
Proof. reflexivity. Qed.

Lemma or_else_Ok {RR} (conv : R -> RR) (f : R -> M W (Result RR E)) (v : R) (w : W) :
  or_else conv f (Ok v, w) = (Returns (Ok (conv v)), (Ok v, w)).
Proof. reflexivity. Qed.

Lemma or_else_Err {RR} (conv : R -> RR) (f : R -> M W (Result RR E)) (e : E) (w : W) :
  or_else conv f (Err e, w)
  = (Throws (std_logic_error "attempt to read the return of an error"), (Err e, w)).
Proof. reflexivity. Qed.

Lemma unwrap_Ok (v : R) (w : W) :
  unwrap (E:=E) (Ok v, w) = (Returns v, (Ok v, w)).
Proof. reflexivity. Qed.

Lemma unwrap_Err (e : E) (w : W) :
  unwrap (R:=R) (Err e, w) = (Throws (thrown E e), (Err e, w)).
Proof. reflexivity. Qed.

Lemma expect_Ok {EE} (oe : EE) (v : R) (w : W) :
  expect (E:=E) oe (Ok v, w) = (Returns v, (Ok v, w)).
Proof. reflexivity. Qed.

Lemma expect_Err {EE} (oe : EE) (e : E) (w : W) :
  expect (R:=R) oe (Err e, w) = (Throws (thrown EE oe), (Err e, w)).
Proof. reflexivity. Qed.

(** No member function writes to its receiver. *)
Lemma wrapped_receiver {A B} (k : A -> B) (this : Result R E) (r : completion A * W) :
  fst (snd (wrapped k this r)) = this.
Proof. destruct r as [[a | x] w']; reflexivity. Qed.

Lemma map_res_receiver {RR} (f : R -> M W RR) (this : Result R E) (w : W) :
  receiver_after (map_res f) this w = this.
Proof.
  unfold receiver_after. destruct this as [[v | e]].
  - fold (Ok (E:=E) v). rewrite map_res_Ok. apply wrapped_receiver.
  - reflexivity.
Qed.

Lemma map_err_receiver {EE} (f : E -> M W EE) (this : Result R E) (w : W) :
  receiver_after (map_err f) this w = this.
Proof.
  unfold receiver_after. destruct this as [[v | e]].
  - reflexivity.
  - fold (Err (R:=R) e). rewrite map_err_Err. apply wrapped_receiver.
Qed.

Lemma and_then_receiver {RR} (f : R -> M W (Result RR E)) (this : Result R E) (w : W) :
  receiver_after (and_then f) this w = this.
Proof.
  unfold receiver_after. destruct this as [[v | e]].
  - fold (Ok (E:=E) v). rewrite and_then_Ok. apply wrapped_receiver.
  - reflexivity.
Qed.

Lemma or_else_receiver {RR} (conv : R -> RR) (f : R -> M W (Result RR E))
  (this : Result R E) (w : W) :
  receiver_after (or_else conv f) this w = this.
Proof. destruct this as [[v | e]]; reflexivity. Qed.

Lemma unwrap_receiver (this : Result R E) (w : W) :
  receiver_after unwrap this w = this.
Proof. destruct this as [[v | e]]; reflexivity. Qed.

Lemma expect_receiver {EE} (oe : EE) (this : Result R E) (w : W) :
  receiver_after (expect oe) this w = this.
Proof. destruct this as [[v | e]]; reflexivity. Qed.

End Combinators.

(** ** Temporaries and chains *)

Section Chains.

Context {R E W : Type}.

Lemma on_temporary_eq {Self A} (obj : Self) (m : Method Self W A) (w : W) :
  on_temporary obj m w = (fst (m (obj, w)), snd (snd (m (obj, w)))).
Proof.
  unfold on_temporary. destruct (m (obj, w)) as [c [obj' w']]. reflexivity.
Qed.

Lemma on_temporary_and_then_Ok {RR} (f : R -> M W (Result RR E)) (v : R) (w : W) :
  on_temporary (Ok v) (and_then f) w = f v w.
Proof.
  rewrite on_temporary_eq, and_then_Ok.
  destruct (f v w) as [[r | x] w']; reflexivity.
Qed.

Lemma on_temporary_and_then_Err {RR} (f : R -> M W (Result RR E)) (e : E) (w : W) :
  on_temporary (Err e) (and_then f) w = (Returns (Err e), w).
Proof. reflexivity. Qed.

Lemma on_temporary_map_res_Err {RR} (f : R -> M W RR) (e : E) (w : W) :
  on_temporary (Err e) (map_res f) w = (Returns (Err e), w).
Proof. reflexivity. Qed.

(** A chain of [and_then] that starts from an [Err] ends in that [Err],
    whatever the functions are, and leaves the world alone. *)
Lemma chained_and_then_Err (fs : list (R -> M W (Result R E))) (e : E) (w : W) :
  chained (map and_then fs) (Err e) w = (Returns (Err e), w).
Proof.
  induction fs as [| f fs IH]; [reflexivity |].
  cbn [map chained]. cbn [bind MonadExn_M].
  rewrite on_temporary_and_then_Err. exact IH.
Qed.

(** The same for a chain of [map_res]. *)
Lemma chained_map_res_Err (fs : list (R -> M W R)) (e : E) (w : W) :
  chained (map map_res fs) (Err (R:=R) e) w = (Returns (Err e), w).
Proof.
  induction fs as [| f fs IH]; [reflexivity |].
  cbn [map chained]. cbn [bind MonadExn_M].
  rewrite on_temporary_map_res_Err. exact IH.
Qed.

(** A chain of [and_then] goes on from what its first function returns. *)
Lemma chained_and_then_Ok (f : R -> M W (Result R E)) (fs : list (R -> M W (Result R E)))
  (v : R) (w : W) :
  chained (map and_then (f :: fs)) (Ok v) w
  = match f v w with
    | (Returns r, w') => chained (map and_then fs) r w'
    | (Throws x, w') => (Throws x, w')
    end.
Proof.
  cbn [map chained]. cbn [bind MonadExn_M].
  rewrite on_temporary_and_then_Ok. reflexivity.
Qed.

End Chains.

(** ** The claims *)

(** C1. [or_else] as the header implements it: on [Ok(v)] it returns
    [Ok(v)] and the caller's function [f] is not invoked, whatever [f]
    is; on [Err(e)] the argument of [f], [this->get_return()], is
    evaluated first and throws [std::logic_error] from [expect_return],
    so [f] is not invoked there either and the world is as it was. *)
Theorem or_else_as_implemented : forall (R E W : Type),
  (forall (f : R -> M W (Result R E)) (v : R) (w : W),
      or_else (fun x => x) f (Ok v, w) = (Returns (Ok v), (Ok v, w)))
  /\ (forall (RR : Type) (conv : R -> RR) (f : R -> M W (Result RR E)) (e : E) (w : W),
      or_else conv f (Err e, w)
      = (Throws (std_logic_error "attempt to read the return of an error"),
         (Err e, w))).
Proof.
  intros R E W. split.
  - intros f v w. apply or_else_Ok.
  - intros RR conv f e w. apply or_else_Err.
Qed.

(** C2. With total functions of the caller, [map_res], [map_err] and
    [and_then] return on every [Result], and [or_else] returns on every
    [Ok]; on every [Err], [or_else] throws a [std::logic_error] of the
    header's own. *)
Theorem combinators_own_exceptions :
  forall (R RR E EE W : Type)
         (f : R -> M W RR) (g : E -> M W EE) (h : R -> M W (Result RR E))
         (conv : R -> RR),
  total f -> total g -> total h ->
  (forall (r : Result R E) (w : W), returned (fst (map_res f (r, w))) = true)
  /\ (forall (r : Result R E) (w : W), returned (fst (map_err g (r, w))) = true)
  /\ (forall (r : Result R E) (w : W), returned (fst (and_then h (r, w))) = true)
  /\ (forall (v : R) (w : W), returned (fst (or_else conv h (Ok v, w))) = true)
  /\ (forall (e : E) (w : W),
        fst (or_else conv h (Err e, w))
        = Throws (std_logic_error "attempt to read the return of an error")).
Proof.
  intros R RR E EE W f g h conv Hf Hg Hh.
  split; [| split; [| split; [| split]]]; [| | | reflexivity | reflexivity].
  - intros [[v | e]] w; [| reflexivity].
    fold (Ok (E:=E) v). rewrite map_res_Ok.
    specialize (Hf v w). destruct (f v w) as [[rr | x] w']; [reflexivity | discriminate].
  - intros [[v | e]] w; [reflexivity |].
    fold (Err (R:=R) e). rewrite map_err_Err.
    specialize (Hg e w). destruct (g e w) as [[ee | x] w']; [reflexivity | discriminate].
  - intros [[v | e]] w; [| reflexivity].
    fold (Ok (E:=E) v). rewrite and_then_Ok.
    specialize (Hh v w). destruct (h v w) as [[rr | x] w']; [reflexivity | discriminate].
Qed.

Lemma combinators_own_exceptions_witness :
  total (W:=unit) (pure by_two)
  /\ total (W:=unit) (pure (fun _ : std.exception => std.mk_exception))
  /\ total (W:=unit) (pure by_two_)
  /\ returned (fst (map_res (pure by_two) (by_two_ 1, tt))) = true
  /\ fst (or_else (fun i => i) (pure by_two_) (Err std.mk_exception, tt))
     = Throws (std_logic_error "attempt to read the return of an error").
Proof.
  assert (Hf : total (W:=unit) (pure by_two)) by (intros a w; reflexivity).
  assert (Hg : total (W:=unit) (pure (fun _ : std.exception => std.mk_exception)))
    by (intros a w; reflexivity).
  assert (Hh : total (W:=unit) (pure by_two_)) by (intros a w; reflexivity).
  pose proof (combinators_own_exceptions Z Z std.exception std.exception unit
                (pure by_two) (pure (fun _ => std.mk_exception)) (pure by_two_)
                (fun i => i) Hf Hg Hh) as [Hres [_ [_ [_ Hor]]]].
  exact (conj Hf (conj Hg (conj Hh (conj (Hres _ _) (Hor _ _))))).
Defined.

(** C3. [Ok(v).unwrap()] returns [v] and throws nothing; [Err(e).unwrap()]
    throws the stored error [e] itself. *)
Theorem unwrap_spec : forall (R E W : Type),
  (forall (v : R) (w : W), unwrap (E:=E) (Ok v, w) = (Returns v, (Ok v, w)))
  /\ (forall (e : E) (w : W),
        unwrap (R:=R) (Err e, w) = (Throws (thrown E e), (Err e, w))).
Proof.
  intros R E W. split; intros x w; [apply unwrap_Ok | apply unwrap_Err].
Qed.

(** C4. [Ok(v).expect(oe)] returns [v]; [Err(e).expect(oe)] throws [oe],
    and the stored error [e] is not what is thrown. *)
Theorem expect_spec : forall (R E EE W : Type) (oe : EE),
  (forall (v : R) (w : W), expect (E:=E) oe (Ok v, w) = (Returns v, (Ok v, w)))
  /\ (forall (e : E) (w : W),
        expect (R:=R) oe (Err e, w) = (Throws (thrown EE oe), (Err e, w))).
Proof.
  intros R E EE W oe. split; intros x w; [apply expect_Ok | apply expect_Err].
Qed.

(** C5. [Ok(v).map_res(f)] is [Ok(f(v))]; [Err(e).map_res(f)] is [Err(e)]
    and [f] is not invoked: the result and the world are the same for
    every [f], also for one that would change the world or throw. *)
Theorem map_res_spec : forall (R RR E W : Type),
  (forall (g : R -> RR) (v : R) (w : W),
      map_res (E:=E) (pure g) (Ok v, w) = (Returns (Ok (g v)), (Ok v, w)))
  /\ (forall (f : R -> M W RR) (v : R) (w : W),
      map_res (E:=E) f (Ok v, w) = wrapped Ok (Ok v) (f v w))
  /\ (forall (f : R -> M W RR) (e : E) (w : W),
      map_res f (Err e, w) = (Returns (Err e), (Err e, w))).
Proof.
  intros R RR E W. split; [| split].
  - intros g v w. reflexivity.
  - intros f v w. apply map_res_Ok.
  - intros f e w. apply map_res_Err.
Qed.

(** C6. [Err(e).map_err(f)] is [Err(f(e))]; [Ok(v).map_err(f)] is [Ok(v)]
    and [f] is not invoked: the result and the world are the same for
    every [f]. *)
Theorem map_err_spec : forall (R E EE W : Type),
  (forall (g : E -> EE) (e : E) (w : W),
      map_err (R:=R) (pure g) (Err e, w) = (Returns (Err (g e)), (Err e, w)))
  /\ (forall (f : E -> M W EE) (e : E) (w : W),
      map_err (R:=R) f (Err e, w) = wrapped Err (Err e) (f e w))
  /\ (forall (f : E -> M W EE) (v : R) (w : W),
      map_err f (Ok v, w) = (Returns (Ok v), (Ok v, w))).
Proof.
  intros R E EE W. split; [| split].
  - intros g e w. reflexivity.
  - intros f e w. apply map_err_Err.
  - intros f v w. apply map_err_Ok.
Qed.

(** C7. [Ok(v).and_then(f)] is [f(v)] itself; [Err(e).and_then(f)] is
    [Err(e)] and [f] is not invoked; a chain of [and_then] stops at the
    first [Err]: from an [Err] receiver no function of the chain is
    invoked, and once a function returned [Err] the later ones are not. *)
Theorem and_then_spec : forall (R RR RRR E W : Type),
  (forall (f : R -> M W (Result RR E)) (v : R) (w : W),
      on_temporary (Ok v) (and_then f) w = f v w)
  /\ (forall (f : R -> M W (Result RR E)) (e : E) (w : W),
      and_then f (Err e, w) = (Returns (Err e), (Err e, w)))
  /\ (forall (f1 : R -> M W (Result RR E)) (f2 : RR -> M W (Result RRR E))
             (e : E) (w : W),
      and_then_twice f1 f2 (Err e) w = (Returns (Err e), w))
  /\ (forall (f1 : R -> M W (Result RR E)) (f2 : RR -> M W (Result RRR E))
             (v : R) (e : E) (w w1 : W),
      f1 v w = (Returns (Err e), w1) ->
      and_then_twice f1 f2 (Ok v) w = (Returns (Err e), w1))
  /\ (forall (fs : list (R -> M W (Result R E))) (e : E) (w : W),
      chained (map and_then fs) (Err e) w = (Returns (Err e), w)).
Proof.
  intros R RR RRR E W. split; [| split; [| split; [| split]]].
  - intros f v w. apply on_temporary_and_then_Ok.
  - intros f e w. apply and_then_Err.
  - intros f1 f2 e w. reflexivity.
  - intros f1 f2 v e w w1 H1. unfold and_then_twice. cbn [bind MonadExn_M].
    rewrite on_temporary_and_then_Ok, H1. reflexivity.
  - intros fs e w. apply chained_and_then_Err.
Qed.

Lemma and_then_spec_witness :
  traced "f1" (Err (R:=Z) std.mk_exception) []
  = (Returns (Err std.mk_exception), ["f1"])
  /\ and_then_twice (fun _ : Z => traced "f1" (Err (R:=Z) std.mk_exception))
                    (fun i : Z => traced "f2" (by_two_ i)) (Ok 1) []
     = (Returns (Err std.mk_exception), ["f1"]).
Proof.
  split; [reflexivity |].
  apply (proj1 (proj2 (proj2 (proj2
           (and_then_spec Z Z Z std.exception (list string)))))).
  reflexivity.
Defined.

(** C8. [TRY(expr)]: when [expr] gives an [Err], the enclosing function
    returns that [Err] at once; when it gives [Ok(v)], [TRY(expr)] is [v]
    and the function goes on.  In a function of two steps whose first
    step gives an [Err], the function returns that [Err] in the world
    the first step left: the second step has not run. *)
Theorem TRY_spec : forall (R E W : Type) (expr : M W (Result R E)) (w w1 : W),
  (forall e : E,
      expr w = (Returns (Err e), w1) ->
      TRY expr w = (Returns (inr (Err e)), w1))
  /\ (forall v : R,
      expr w = (Returns (Ok v), w1) ->
      TRY expr w = (Returns (inl v), w1))
  /\ (forall (e : E) (step2 : R -> M W (Result R E)) (finish : R -> R -> Result R E),
      expr w = (Returns (Err e), w1) ->
      two_steps expr step2 finish w = (Returns (Err e), w1))
  /\ (forall (v : R) (step2 : R -> M W (Result R E)) (finish : R -> R -> Result R E),
      expr w = (Returns (Ok v), w1) ->
      two_steps expr step2 finish w
      = function (b <~ TRY (step2 v) ;; return_ (finish v b)) w1).
Proof.
  intros R E W expr w w1. split; [| split; [| split]].
  - intros e H. unfold TRY. cbn [bind MonadExn_M]. rewrite H. reflexivity.
  - intros v H. unfold TRY. cbn [bind MonadExn_M]. rewrite H. reflexivity.
  - intros e step2 finish H.
    unfold two_steps, function, then_, TRY. cbn [bind MonadExn_M].
    rewrite H. reflexivity.
  - intros v step2 finish H.
    unfold two_steps, function, then_, TRY. cbn [bind MonadExn_M].
    rewrite H. reflexivity.
Qed.

Lemma TRY_spec_witness :
  (traced "step1" (Err (R:=Z) std.mk_exception) []
   = (Returns (Err std.mk_exception), ["step1"])
   /\ TRY (traced "step1" (Err (R:=Z) std.mk_exception)) []
      = (Returns (inr (Err std.mk_exception)), ["step1"])
   /\ two_steps (traced "step1" (Err (R:=Z) std.mk_exception))
                (fun a => traced "step2" (by_two_ a))
                (fun a b => Ok (a + b)) []
      = (Returns (Err std.mk_exception), ["step1"]))
  /\ (traced "step1" (by_two_ 21) [] = (Returns (Ok 42), ["step1"])
      /\ TRY (traced "step1" (by_two_ 21)) [] = (Returns (inl 42), ["step1"])
      /\ two_steps (traced "step1" (by_two_ 21))
                   (fun a => traced "step2" (by_two_ a))
                   (fun a b => Ok (a + b)) []
         = (Returns (Ok 126), ["step1"; "step2"])).
Proof.
  pose proof (TRY_spec Z std.exception (list string)
                (traced "step1" (Err std.mk_exception)) [] ["step1"])
    as [HErr [_ [HErr2 _]]].
  pose proof (TRY_spec Z std.exception (list string)
                (traced "step1" (by_two_ 21)) [] ["step1"])
    as [_ [HOk [_ HOk2]]].
  split; [split; [reflexivity | split] | split; [reflexivity | split]].
  - apply HErr. reflexivity.
  - apply HErr2. reflexivity.
  - apply HOk. reflexivity.
  - rewrite (HOk2 42); reflexivity.
Defined.

(** C9. Exactly one of [is_ok()] and [is_error()] holds of every
    [Result]: [Ok(v)] is ok and not an error, [Err(e)] is an error and
    not ok; no [Result] is empty and each getter returns exactly under
    its own tag; after every member function the receiver is such a
    [Result], and so is the [Result] a combinator produced. *)
Theorem tag_payload_consistency : forall (R E W : Type),
  (forall v : R, is_ok (E:=E) (Ok v) = true /\ is_error (E:=E) (Ok v) = false)
  /\ (forall e : E, is_error (R:=R) (Err e) = true /\ is_ok (R:=R) (Err e) = false)
  /\ (forall r : Result R E, xorb (is_ok r) (is_error r) = true)
  /\ (forall r : Result R E, consistent r)
  /\ (forall (RR EE : Type) (conv : R -> RR) (oe : EE)
             (f : R -> M W RR) (g : E -> M W EE) (h : R -> M W (Result RR E))
             (this : Result R E) (w : W),
        (consistent (receiver_after (map_res f) this w)
         /\ produces consistent (fst (map_res f (this, w))))
        /\ (consistent (receiver_after (map_err g) this w)
            /\ produces consistent (fst (map_err g (this, w))))
        /\ (consistent (receiver_after (and_then h) this w)
            /\ produces consistent (fst (and_then h (this, w))))
        /\ (consistent (receiver_after (or_else conv h) this w)
            /\ produces consistent (fst (or_else conv h (this, w))))
        /\ consistent (receiver_after unwrap this w)
        /\ consistent (receiver_after (expect oe) this w)).
Proof.
  intros R E W.
  assert (P : forall (A B : Type) (c : completion (Result A B)),
             produces consistent c).
  { intros A B [r | x]; [apply consistent_all | exact I]. }
  split; [| split; [| split; [| split]]].
  - intros v. split; reflexivity.
  - intros e. split; reflexivity.
  - intros [[v | e]]; reflexivity.
  - apply consistent_all.
  - intros RR EE conv oe f g h this w.
    repeat match goal with
           | |- _ /\ _ => split
           | |- consistent _ => apply consistent_all
           | |- produces consistent _ => apply P
           end.
Qed.

(** C10. [unwrap] and [expect] on an [Ok], and [map_res], [map_err] and
    [and_then] on any [Result], leave the receiver as it was; called
    again on it they do what they do on the original, and [unwrap] and
    [expect] called twice on an [Ok(v)] return [v] both times. *)
Theorem receiver_unchanged : forall (R E W : Type),
  (forall (v : R) (w : W), snd (unwrap (E:=E) (Ok v, w)) = (Ok v, w))
  /\ (forall (EE : Type) (oe : EE) (v : R) (w : W),
        snd (expect (E:=E) oe (Ok v, w)) = (Ok v, w))
  /\ (forall (RR EE : Type)
             (f : R -> M W RR) (g : E -> M W EE) (h : R -> M W (Result RR E))
             (this : Result R E) (w : W),
        receiver_after (map_res f) this w = this
        /\ receiver_after (map_err g) this w = this
        /\ receiver_after (and_then h) this w = this)
  /\ (forall (RR EE : Type)
             (f : R -> M W RR) (g : E -> M W EE) (h : R -> M W (Result RR E))
             (this : Result R E) (w w' : W),
        map_res f (receiver_after (map_res f) this w, w') = map_res f (this, w')
        /\ map_err g (receiver_after (map_err g) this w, w') = map_err g (this, w')
        /\ and_then h (receiver_after (and_then h) this w, w') = and_then h (this, w'))
  /\ (forall (v : R) (w : W),
        twice unwrap (Ok (E:=E) v, w) = (Returns (v, v), (Ok v, w)))
  /\ (forall (EE : Type) (oe : EE) (v : R) (w : W),
        twice (expect oe) (Ok (E:=E) v, w) = (Returns (v, v), (Ok v, w)))
  /\ (forall (RR : Type) (g : R -> RR) (v : R) (w : W),
        twice (map_res (pure g)) (Ok (E:=E) v, w)
        = (Returns (Ok (g v), Ok (g v)), (Ok v, w))).
Proof.
  intros R E W. split; [| split; [| split; [| split; [| split; [| split]]]]].
  - intros v w. reflexivity.
  - intros EE oe v w. reflexivity.
  - intros RR EE f g h this w.
    split; [apply map_res_receiver | split].
    + apply map_err_receiver.
    + apply and_then_receiver.
  - intros RR EE f g h this w w'.
    rewrite map_res_receiver, map_err_receiver, and_then_receiver.
    repeat split.
  - intros v w. reflexivity.
  - intros EE oe v w. reflexivity.
  - intros RR g v w. reflexivity.
Qed.

(** ** The unit tests, run on the model *)

(** [get_fib_recursive(0)] returns [Result<int>::Ok(1)], and the tests
    chain six calls on it. *)
Example TestAndThenChained :
  (r <- chained (map and_then (repeat (pure by_two_) 6)) (Ok 1) ;;
   on_temporary r unwrap) tt
  = (Returns 64, tt).
Proof. reflexivity. Qed.

Example TestAndThenFail :
  (r <- on_temporary (Err (R:=Z) std.mk_exception) (and_then (pure by_two_)) ;;
   r' <- on_temporary r (map_err (pure (fun _ : std.exception => mk_error))) ;;
   on_temporary r' unwrap) tt
  = (Throws (thrown error mk_error), tt).
Proof. reflexivity. Qed.

Example UnwrapThrow :
  on_temporary (Err (R:=Z) std.mk_exception) unwrap tt
  = (Throws (thrown std.exception std.mk_exception), tt).
Proof. reflexivity. Qed.

Example ExpectThrow :
  on_temporary (Err (R:=Z) std.mk_exception) (expect (std.mk_logic_error "logical error")) tt
  = (Throws (std_logic_error "logical error"), tt).
Proof. reflexivity. Qed.

Example ExpectNoThrow :
  on_temporary (Ok (E:=std.exception) 42) (expect (std.mk_logic_error "logical error")) tt
  = (Returns 42, tt).
Proof. reflexivity. Qed.

(** [Err(e).or_else(f)] on the model: [f] leaves no trace. *)
Example or_else_on_Err :
  on_temporary (Err (R:=Z) std.mk_exception)
               (or_else (fun i => i) (fun i => traced "f" (by_two_ i))) []
  = (Throws (std_logic_error "attempt to read the return of an error"), []).
Proof. reflexivity. Qed.

(** * Further properties *)

(** Runs a goal about member functions down to the calls of the caller's
    functions, and splits on how each of them completes. *)
Ltac run_members :=
  unfold on_temporary, and_after, pure, map_res, map_err, and_then, or_else,
    unwrap, expect, invoke, this_const, this_noexcept;
  cbn.

Ltac split_calls :=
  repeat match goal with
         | |- context [match ?f ?a ?w with _ => _ end] =>
             destruct (f a w) as [[? | ?] ?]; cbn
         end.

(** ** The getters *)

(** X1. Each getter is guarded by its assertion: on an [Ok] the return
    getter gives the value and the error getter throws the header's
    [std::logic_error]; on an [Err] it is the other way round.  Nothing
    else is thrown, [boost::bad_get] in particular. *)
Theorem getters_guarded : forall (R E : Type) (r : Result R E),
  (exists v : R,
      r = Ok v
      /\ get_return r = Returns v
      /\ get_error r
         = Throws (std_logic_error "attempt to read the error of a valid result"))
  \/ (exists e : E,
      r = Err e
      /\ get_error r = Returns e
      /\ get_return r
         = Throws (std_logic_error "attempt to read the return of an error")).
Proof.
  intros R E [[v | e]]; [left; exists v | right; exists e];
    split; [reflexivity | split; reflexivity | reflexivity | split; reflexivity].
Qed.

(** ** How the combinators compose *)

(** X2. [map_res] with the identity gives the receiver back, and two
    [map_res] in a row are one [map_res] with the two functions in a
    row, also for functions with effects. *)
Theorem map_res_functor : forall (R E W : Type),
  (forall (r : Result R E) (w : W),
      on_temporary r (map_res (pure (fun v => v))) w = (Returns r, w))
  /\ (forall (RR RRR : Type) (f : R -> M W RR) (g : RR -> M W RRR)
             (r : Result R E) (w : W),
      (r1 <- on_temporary r (map_res f) ;; on_temporary r1 (map_res g)) w
      = on_temporary r (map_res (and_after f g)) w).
Proof.
  intros R E W. split.
  - intros [[v | e]] w; reflexivity.
  - intros RR RRR f g [[v | e]] w; run_members; [| reflexivity].
    destruct (f v w) as [[rr | x] w1]; cbn; [| reflexivity].
    destruct (g rr w1) as [[rrr | x] w2]; reflexivity.
Qed.

(** X3. The same for [map_err]. *)
Theorem map_err_functor : forall (R E W : Type),
  (forall (r : Result R E) (w : W),
      on_temporary r (map_err (pure (fun e => e))) w = (Returns r, w))
  /\ (forall (EE EEE : Type) (f : E -> M W EE) (g : EE -> M W EEE)
             (r : Result R E) (w : W),
      (r1 <- on_temporary r (map_err f) ;; on_temporary r1 (map_err g)) w
      = on_temporary r (map_err (and_after f g)) w).
Proof.
  intros R E W. split.
  - intros [[v | e]] w; reflexivity.
  - intros EE EEE f g [[v | e]] w; run_members; [reflexivity |].
    destruct (f e w) as [[ee | x] w1]; cbn; [| reflexivity].
    destruct (g ee w1) as [[eee | x] w2]; reflexivity.
Qed.

(** X4. [map_res] and [map_err] commute: only one of the two functions
    runs, whichever comes first in the chain. *)
Theorem map_res_map_err_commute :
  forall (R RR E EE W : Type) (f : R -> M W RR) (g : E -> M W EE)
         (r : Result R E) (w : W),
  (r1 <- on_temporary r (map_res f) ;; on_temporary r1 (map_err g)) w
  = (r1 <- on_temporary r (map_err g) ;; on_temporary r1 (map_res f)) w.
Proof.
  intros R RR E EE W f g [[v | e]] w; run_members.
  - destruct (f v w) as [[rr | x] w1]; reflexivity.
  - destruct (g e w) as [[ee | x] w1]; reflexivity.
Qed.

(** X5. [and_then] with [Ok] gives the receiver back, and [and_then]
    is associative: [r.and_then(f).and_then(g)] is
    [r.and_then(v => f(v).and_then(g))]. *)
Theorem and_then_monad : forall (R E W : Type),
  (forall (r : Result R E) (w : W),
      on_temporary r (and_then (pure Ok)) w = (Returns r, w))
  /\ (forall (RR RRR : Type) (f : R -> M W (Result RR E))
             (g : RR -> M W (Result RRR E)) (r : Result R E) (w : W),
      (r1 <- on_temporary r (and_then f) ;; on_temporary r1 (and_then g)) w
      = on_temporary r
          (and_then (fun v => r1 <- f v ;; on_temporary r1 (and_then g))) w).
Proof.
  intros R E W. split.
  - intros [[v | e]] w; reflexivity.
  - intros RR RRR f g [[v | e]] w; run_members; [| reflexivity].
    destruct (f v w) as [[[[v1 | e1]] | x] w1]; cbn; try reflexivity.
    destruct (g v1 w1) as [[r2 | x] w2]; reflexivity.
Qed.

(** X6. [map_res] is [and_then] with the function's value put in [Ok]. *)
Theorem map_res_as_and_then :
  forall (R RR E W : Type) (f : R -> M W RR) (r : Result R E) (w : W),
  on_temporary r (map_res f) w
  = on_temporary r (and_then (and_after f (pure Ok))) w.
Proof.
  intros R RR E W f [[v | e]] w; run_members; [| reflexivity].
  destruct (f v w) as [[rr | x] w1]; reflexivity.
Qed.

(** X7. The combinators keep the tag they are not for: the result of
    [map_res] and of [map_err] has the tag of the receiver, and
    [and_then] on an [Err] gives an [Err]. *)
Theorem combinators_keep_tag :
  forall (R RR E EE W : Type) (f : R -> M W RR) (g : E -> M W EE)
         (h : R -> M W (Result RR E)) (r : Result R E) (w : W),
  produces (fun r' => is_ok r' = is_ok r) (fst (map_res f (r, w)))
  /\ produces (fun r' => is_ok r' = is_ok r) (fst (map_err g (r, w)))
  /\ produces (fun r' => implb (is_error r) (is_error r') = true)
              (fst (and_then h (r, w))).
Proof.
  intros R RR E EE W f g h [[v | e]] w; run_members; split_calls;
    repeat split.
Qed.

(** ** Chains *)

(** X8. A chain of [map_res] with functions without effect, started on
    [Ok(v)], gives [Ok] of the functions applied to [v] one after the
    other, first to last. *)
Theorem chained_map_res_Ok :
  forall (R E W : Type) (gs : list (R -> R)) (v : R) (w : W),
  chained (map (fun g => map_res (E:=E) (pure g)) gs) (Ok v) w
  = (Returns (Ok (fold_left (fun a g => g a) gs v)), w).
Proof.
  intros R E W gs. induction gs as [| g gs IH]; intros v w; [reflexivity |].
  cbn [map chained fold_left]. cbn [bind MonadExn_M].
  rewrite on_temporary_eq, map_res_Ok. cbn. apply IH.
Qed.

(** X9. An error goes through a whole chain to the [unwrap] at its end:
    after any chain of [map_res], or of [and_then], on [Err(e)],
    [unwrap] throws [e], and no function of the chain has run. *)
Theorem chained_Err_unwrap :
  forall (R E W : Type) (e : E) (w : W),
  (forall fs : list (R -> M W R),
      (r <- chained (map map_res fs) (Err e) ;; on_temporary r unwrap) w
      = (Throws (thrown E e), w))
  /\ (forall fs : list (R -> M W (Result R E)),
      (r <- chained (map and_then fs) (Err e) ;; on_temporary r unwrap) w
      = (Throws (thrown E e), w)).
Proof.
  intros R E W e w. split; intros fs; cbn [bind MonadExn_M].
  - rewrite chained_map_res_Err. reflexivity.
  - rewrite chained_and_then_Err. reflexivity.
Qed.

(** ** [unwrap] and [expect] *)

(** X10. [r.expect(oe)] is [r.map_err(f).unwrap()] for the function [f]
    that gives [oe] for every error. *)
Theorem expect_as_map_err_unwrap :
  forall (R E EE W : Type) (oe : EE) (r : Result R E) (w : W),
  on_temporary r (expect oe) w
  = (r1 <- on_temporary r (map_err (pure (fun _ : E => oe))) ;;
     on_temporary r1 unwrap) w.
Proof.
  intros R E EE W oe [[v | e]] w; reflexivity.
Qed.

(** X11. A call that throws leaves the [Result] as it was: after
    [unwrap] and [expect] the receiver and the world are what they were,
    on an [Err] too, so that a second [unwrap] throws the same error
    again; [or_else] changes neither on any receiver, whatever its
    function is. *)
Theorem throwing_members_leave_receiver :
  forall (R RR E EE W : Type) (oe : EE) (conv : R -> RR)
         (f : R -> M W (Result RR E)) (r : Result R E) (w : W),
  snd (unwrap (r, w)) = (r, w)
  /\ snd (expect oe (r, w)) = (r, w)
  /\ snd (or_else conv f (r, w)) = (r, w)
  /\ unwrap (snd (unwrap (r, w))) = unwrap (r, w).
Proof.
  intros R RR E EE W oe conv f [[v | e]] w; repeat split.
Qed.

(** ** [TRY] *)


(** X13. To take a [Result] apart with [TRY] and to put the value back
    in [Ok] is to return the [Result] itself. *)
Theorem TRY_then_Ok :
  forall (R E W : Type) (expr : M W (Result R E)) (w : W),
  function (x <~ TRY expr ;; return_ (Ok x)) w = expr w.
Proof.
  intros R E W expr w. unfold function, then_, TRY. cbn [bind MonadExn_M].
  destruct (expr w) as [[[[v | e]] | x] w1]; reflexivity.
Qed.

(** X14. What follows a [TRY] in a function is what [and_then] would be
    given: [auto a = TRY(expr); rest(a)] returns what
    [expr.and_then(rest)] returns. *)
Theorem TRY_as_and_then :
  forall (R E W : Type) (expr : M W (Result R E))
         (rest : R -> Body (Result R E) W Empty_set) (w : W),
  function (a <~ TRY expr ;; rest a) w
  = (r <- expr ;; on_temporary r (and_then (fun a => function (rest a)))) w.
Proof.
  intros R E W expr rest w.
  unfold function, then_, TRY. cbn [bind MonadExn_M].
  destruct (expr w) as [[[[v | e]] | x] w1]; [| reflexivity | reflexivity].
  cbn. unfold on_temporary, and_then, invoke, this_noexcept, this_const; cbn.
  destruct (rest v w1) as [[[[] | r] | x] w2]; reflexivity.
Qed.

(** ** The Fibonacci functions *)

Lemma int_wrap_in_range (z : Z) : INT_MIN <= z <= INT_MAX -> int_wrap z = z.
Proof.
  unfold INT_MIN, INT_MAX, int_wrap. intros H.
  rewrite Z.mod_small; lia.
Qed.

Lemma fib_step_iter_snd (k : nat) (s : Z * Z) :
  snd (Nat.iter (S k) fib_step s) = fst (Nat.iter k fib_step s).
Proof. reflexivity. Qed.

Lemma fib_int_rec (k : nat) :
  fib_int (S (S k)) = int_add (fib_int (S k)) (fib_int k).
Proof.
  unfold fib_int. cbn [Nat.iter nat_rect]. unfold fib_step at 1. cbn [fst snd].
  reflexivity.
Qed.

(** The loop does [i] turns, and none when [i] is not positive. *)
Lemma fib_loop_iter (k : nat) : forall i n_1 n_2 : Z,
  Z.to_nat i = k ->
  fib_loop i n_1 n_2 = fst (Nat.iter k fib_step (n_1, n_2)).
Proof.
  induction k as [| k IH]; intros i n_1 n_2 Hk;
    rewrite fib_loop_equation_1; destruct (Z_gt_dec i 0) as [Hi | Hi];
    try lia; [reflexivity |].
  rewrite (IH (i - 1) _ _) by lia.
  rewrite Nat.iter_succ_r. reflexivity.
Qed.

Section FibRecursive.

Context {W : Type}.

Lemma get_fib_recursive_neg (n : Z) (w : W) :
  n < 0 -> get_fib_recursive n w = (Returns (Err std.mk_exception), w).
Proof.
  intros H. rewrite get_fib_recursive_equation_1.
  destruct (Z_lt_dec n 0); [reflexivity | lia].
Qed.

Lemma get_fib_recursive_nonneg (n : Z) :
  0 <= n ->
  forall w : W, get_fib_recursive n w = (Returns (Ok (fib_int (Z.to_nat n))), w).
Proof.
  revert n. apply (Zlt_0_ind (fun n => forall w : W,
    get_fib_recursive n w = (Returns (Ok (fib_int (Z.to_nat n))), w))).
  intros n IH Hn w. rewrite get_fib_recursive_equation_1.
  destruct (Z_lt_dec n 0) as [H0 | H0]; [lia |].
  destruct (Z.eq_dec n 0) as [H1 | H1]; [subst n; reflexivity |].
  destruct (Z.eq_dec n 1) as [H2 | H2]; [subst n; reflexivity |].
  unfold function, then_, TRY. cbn [bind MonadExn_M].
  rewrite (IH (n - 1)) by lia. cbn.
  rewrite (IH (n - 2)) by lia. cbn.
  replace (Z.to_nat n) with (S (S (Z.to_nat (n - 2)))) by lia.
  replace (Z.to_nat (n - 1)) with (S (Z.to_nat (n - 2))) by lia.
  rewrite fib_int_rec. reflexivity.
Qed.

Lemma get_fib_iterative_neg (n : Z) (w : W) :
  n < 0 -> get_fib_iterative n w = (Returns (Err std.mk_exception), w).
Proof.
  intros H. unfold get_fib_iterative.
  destruct (Z.ltb_spec n 0); [reflexivity | lia].
Qed.

Lemma get_fib_iterative_nonneg (n : Z) (w : W) :
  0 <= n ->
  get_fib_iterative n w = (Returns (Ok (fib_int (Z.to_nat n))), w).
Proof.
  intros H. unfold get_fib_iterative.
  destruct (Z.ltb_spec n 0); [lia |].
  rewrite (fib_loop_iter (Z.to_nat n)) by reflexivity. reflexivity.
Qed.

End FibRecursive.

(** X15. The two Fibonacci functions of the tests agree on every [n]:
    the recursive one, with its [TRY]s, returns what the loop returns,
    and neither throws. *)
Theorem get_fib_recursive_iterative :
  forall (W : Type) (n : Z) (w : W),
  get_fib_recursive n w = get_fib_iterative n w
  /\ returned (fst (get_fib_recursive n w)) = true
  /\ snd (get_fib_recursive n w) = w.
Proof.
  intros W n w. destruct (Z_lt_dec n 0) as [H | H].
  - rewrite get_fib_recursive_neg, get_fib_iterative_neg by lia.
    repeat split.
  - rewrite get_fib_recursive_nonneg, get_fib_iterative_nonneg by lia.
    repeat split.
Qed.

(** X16. On a negative [n] both functions return [Err(std::exception())],
    and [unwrap] on it throws that [std::exception]. *)
Theorem get_fib_negative :
  forall (W : Type) (n : Z) (w : W),
  n < 0 ->
  get_fib_recursive n w = (Returns (Err std.mk_exception), w)
  /\ get_fib_iterative n w = (Returns (Err std.mk_exception), w)
  /\ (r <- get_fib_recursive n ;; on_temporary r unwrap) w
     = (Throws (thrown std.exception std.mk_exception), w)
  /\ (r <- get_fib_iterative n ;; on_temporary r unwrap) w
     = (Throws (thrown std.exception std.mk_exception), w).
Proof.
  intros W n w H. cbn [bind MonadExn_M].
  rewrite get_fib_recursive_neg, get_fib_iterative_neg by exact H.
  repeat split.
Qed.

Lemma get_fib_negative_witness :
  -10 < 0
  /\ (r <- get_fib_recursive (-10) ;; on_temporary r unwrap) tt
     = (Throws (thrown std.exception std.mk_exception), tt).
Proof.
  split; [lia |].
  apply (proj1 (proj2 (proj2 (get_fib_negative unit (-10) tt ltac:(lia))))).
Defined.

(** The numbers without a bound, as the loop counts them. *)
Lemma fibonacci_positive (k : nat) : 0 < fibonacci k /\ 0 < fibonacci (S k).
Proof.
  induction k as [| k [IH1 IH2]]; [split; reflexivity |].
  split; [exact IH2 |].
  change (fibonacci (S (S k))) with (fibonacci (S k) + fibonacci k). lia.
Qed.

Lemma fibonacci_monotone (k m : nat) : (k <= m)%nat -> fibonacci k <= fibonacci m.
Proof.
  induction 1 as [| m _ IH]; [lia |].
  destruct m as [| m]; [exact IH |].
  change (fibonacci (S (S m))) with (fibonacci (S m) + fibonacci m).
  pose proof (fibonacci_positive m). lia.
Qed.

Lemma fibonacci_iter (k : nat) :
  Nat.iter (S k) (fun s : Z * Z => (fst s + snd s, fst s)) (1, 0)
  = (fibonacci (S k), fibonacci k).
Proof.
  induction k as [| k IH]; [reflexivity |].
  rewrite Nat.iter_succ, IH. reflexivity.
Qed.

Lemma fibonacci_iter_snd (k : nat) (p : Z * Z) :
  Nat.iter (S k) (fun s : Z * Z => (fst s + snd s, fst s)) (1, 0) = p ->
  fibonacci k = snd p.
Proof. intros <-. rewrite fibonacci_iter. reflexivity. Qed.

Lemma fibonacci_45 : fibonacci 45 = 1836311903.
Proof.
  apply (fibonacci_iter_snd 45 (2971215073, 1836311903)).
  vm_compute. reflexivity.
Qed.

Lemma fibonacci_in_range (k : nat) :
  (k <= 45)%nat -> INT_MIN <= fibonacci k <= INT_MAX.
Proof.
  intros H. pose proof (fibonacci_monotone k 45 H) as Hm.
  rewrite fibonacci_45 in Hm. pose proof (fibonacci_positive k).
  unfold INT_MIN, INT_MAX. lia.
Qed.

(** Up to 45 no sum of the loop leaves [int]. *)
Lemma fib_int_fibonacci (k : nat) :
  (S k <= 45)%nat -> fib_int k = fibonacci k /\ fib_int (S k) = fibonacci (S k).
Proof.
  induction k as [| k IH]; intros H; [split; reflexivity |].
  destruct IH as [IH1 IH2]; [lia |].
  split; [exact IH2 |].
  rewrite fib_int_rec, IH1, IH2. unfold int_add.
  change (fibonacci (S k) + fibonacci k) with (fibonacci (S (S k))).
  apply int_wrap_in_range, fibonacci_in_range. exact H.
Qed.

(** X17. For [n] from 0 to 45 both functions return [Ok] of the [n]-th
    Fibonacci number itself, counted from [1, 1, 2, 3]: no sum has left
    [int]. *)
Theorem get_fib_exact :
  forall (W : Type) (n : Z) (w : W),
  0 <= n <= 45 ->
  get_fib_recursive n w = (Returns (Ok (fibonacci (Z.to_nat n))), w)
  /\ get_fib_iterative n w = (Returns (Ok (fibonacci (Z.to_nat n))), w)
  /\ 1 <= fibonacci (Z.to_nat n) <= INT_MAX.
Proof.
  intros W n w H.
  rewrite get_fib_recursive_nonneg, get_fib_iterative_nonneg by lia.
  assert (Hk : (Z.to_nat n <= 45)%nat) by lia.
  assert (Hf : fib_int (Z.to_nat n) = fibonacci (Z.to_nat n)).
  { destruct (Z.to_nat n) as [| k]; [reflexivity |].
    apply (fib_int_fibonacci k). lia. }
  rewrite Hf. pose proof (fibonacci_in_range _ Hk).
  pose proof (fibonacci_positive (Z.to_nat n)). repeat split; lia.
Qed.

Lemma get_fib_exact_witness :
  0 <= 10 <= 45
  /\ get_fib_recursive 10 tt = (Returns (Ok 89), tt)
  /\ get_fib_iterative 10 tt = (Returns (Ok 89), tt).
Proof.
  split; [lia |].
  destruct (get_fib_exact unit 10 tt ltac:(lia)) as [Hr [Hi _]].
  split; [exact Hr | exact Hi].
Defined.
